(** * Gödel's System T in TypeScript: the recursor and its derived library

    A shallow embedding of [src/godel-t.ts].  The numerals of the program
    are host numbers used as natural numbers ([Zero], [Succ], and a
    recursor that counts down to [Zero]); they are embedded as [nat].
    Booleans are [bool], the unary numeric functions handed around by
    [compose], [iterate] and [ackermann] are functions [nat -> nat]. *)

From Stdlib Require Import Arith ZArith List Lia Bool.

Module GodelT.

(** ** The numeral model, the conditional and the recursor *)

Definition Zero : nat := 0.

Definition Succ (x : nat) : nat := x + 1.

(** [Cases(cond, a, b)] is [cond ? a : b]. *)
Definition Cases {T : Type} (cond : bool) (a b : T) : T :=
  if cond then a else b.

(** [Rec(sn, s, t)] is [sn === Zero ? s : t(sn - 1, Rec(sn - 1, s, t))]:
    in the successor branch the bound variable is [sn - 1]. *)
Fixpoint Rec {T : Type} (sn : nat) (s : T) (t : nat -> T -> T) : T :=
  match sn with
  | O => s
  | S n => t n (Rec n s t)
  end.

(** ** Arithmetic library *)

Definition add (x y : nat) : nat :=
  Rec x y (fun z w => Succ w).

Definition multiply (x y : nat) : nat :=
  Rec y Zero (fun z w => add x w).

Definition exp (x y : nat) : nat :=
  Rec y 1 (fun z w => multiply x w).

Definition double (x : nat) : nat :=
  Rec x Zero (fun z w => Succ (Succ w)).

Definition pred (x : nat) : nat :=
  Rec x Zero (fun z w => z).

Definition subtract (x y : nat) : nat :=
  Rec y x (fun z w => pred w).

Definition isZero (x : nat) : bool :=
  Rec x true (fun z w => false).

(** ** Boolean library *)

Definition not (x : bool) : bool := Cases x false true.

Definition and (x y : bool) : bool := Cases x y false.

Definition or (x y : bool) : bool := Cases x true y.

Definition xor (x y : bool) : bool := Cases x (not y) y.

Definition eq (x y : nat) : bool :=
  and (isZero (subtract x y)) (isZero (subtract y x)).

Definition gt (x y : nat) : bool := not (isZero (subtract x y)).

Definition lt (x y : nat) : bool := not (isZero (subtract y x)).

Definition gte (x y : nat) : bool := or (eq x y) (gt x y).

Definition lte (x y : nat) : bool := or (eq x y) (lt x y).

(** ** Remainder, division, primality *)

(** The step of the recursion inside [remainder]. *)
Definition remainder_step (y : nat) (z w : nat) : nat :=
  Cases (eq (pred y) w) Zero (Succ w).

Definition remainder (x y : nat) : nat :=
  Cases (lt x y) Zero (Rec x Zero (remainder_step y)).

(** The step of the recursion inside [divide]. *)
Definition divide_step (y : nat) (z w : nat) : nat :=
  Cases (eq (pred y) (remainder z y)) (Succ w) w.

Definition divide (x y : nat) : nat :=
  Cases (lt x y) Zero (Rec x 1 (divide_step y)).

(** The step of the recursion inside [isPrime]: it counts the [z] below
    [x] with [remainder(x, z)] zero. *)
Definition isPrime_step (x : nat) (z w : nat) : nat :=
  Cases (isZero (remainder x z)) (Succ w) w.

Definition isPrime (x : nat) : bool :=
  Cases (eq x 1) true (eq 2 (Rec x Zero (isPrime_step x))).

(** ** Function iteration and the Ackermann construction *)

Definition OneArityNumericFn : Type := nat -> nat.

Definition compose (f g : OneArityNumericFn) : OneArityNumericFn :=
  fun x => f (g x).

Definition iterate (f : OneArityNumericFn) (n : nat) : OneArityNumericFn :=
  Rec n (fun x => x) (fun z w => compose f w).

Definition ackermann (x : nat) : OneArityNumericFn :=
  Rec x Succ (fun z w => iterate w (w (Succ Zero))).

(** ** Auxiliary notions used by the statements below *)

(** The division/remainder relation as the specification words it, at one
    pair of arguments. *)
Definition division_relation_at (a b : nat) : Prop :=
  0 < b ->
  a = add (multiply (divide a b) b) (remainder a b) /\ remainder a b < b.


(** ** The self-tests of the source, replayed on the embedding *)

Example test_add : add 1 2 = 3 /\ add 4 2 = 6 /\ add 0 0 = 0.
Proof. repeat split. Qed.

Example test_multiply :
  multiply 1 1 = 1 /\ multiply 0 3 = 0 /\ multiply 3 2 = 6.
Proof. repeat split. Qed.

Example test_exp : exp 2 3 = 8 /\ exp 1 3 = 1 /\ exp 3 2 = 9.
Proof. repeat split. Qed.

Example test_pred_subtract :
  pred 2 = 1 /\ pred 20 = 19 /\ pred 0 = 0 /\
  subtract 10 1 = 9 /\ subtract 4 4 = 0 /\ subtract 2 3 = 0.
Proof. repeat split. Qed.

Example test_double_isZero :
  double 2 = 4 /\ double 1 = 2 /\ double 3 = 6 /\
  isZero 0 = true /\ isZero 9 = false /\ isZero 1 = false.
Proof. repeat split. Qed.

Example test_booleans :
  not true = false /\ not false = true /\
  and true true = true /\ and true false = false /\
  and false true = false /\ and false false = false /\
  or true true = true /\ or true false = true /\
  or false true = true /\ or false false = false /\
  xor true true = false /\ xor true false = true /\
  xor false true = true /\ xor false false = false.
Proof. repeat split. Qed.

Example test_remainder :
  remainder 4 2 = 0 /\ remainder 5 2 = 1 /\
  remainder 10 6 = 4 /\ remainder 1 2 = 0.
Proof. repeat split. Qed.

Example test_divide :
  divide 2 2 = 1 /\ divide 4 2 = 2 /\ divide 6 2 = 3 /\ divide 12 3 = 4 /\
  divide 11 11 = 1 /\ divide 10 5 = 2 /\ divide 99 11 = 9 /\
  divide 99 100 = 0.
Proof. vm_compute. repeat split. Qed.

Example test_isPrime :
  isPrime 13 = true /\ isPrime 12 = false /\ isPrime 3 = true /\
  isPrime 5 = true.
Proof. vm_compute. repeat split. Qed.

Example test_comparisons :
  eq 1 2 = false /\ eq 1 1 = true /\ gt 5 2 = true /\ gt 1 1 = false /\
  lt 1 2 = true /\ lt 5 2 = false /\ gte 1 2 = false /\ gte 5 2 = true /\
  lte 1 1 = true /\ lte 5 2 = false.
Proof. repeat split. Qed.

(** ** What the derived functions compute *)

Lemma Succ_S (x : nat) : Succ x = S x.
Proof. unfold Succ. lia. Qed.

Lemma add_spec (x y : nat) : add x y = x + y.
Proof.
  unfold add. induction x as [|x IH]; simpl; [reflexivity|].
  rewrite IH, Succ_S. reflexivity.
Qed.

Lemma multiply_spec (x y : nat) : multiply x y = x * y.
Proof.
  unfold multiply. induction y as [|y IH]; simpl.
  - unfold Zero. lia.
  - rewrite IH, add_spec. lia.
Qed.

Lemma pred_spec (x : nat) : pred x = x - 1.
Proof. unfold pred. destruct x; simpl; unfold Zero; lia. Qed.

Lemma subtract_spec (x y : nat) : subtract x y = x - y.
Proof.
  unfold subtract. induction y as [|y IH]; simpl; [lia|].
  rewrite IH, pred_spec. lia.
Qed.

Lemma isZero_spec (x : nat) : isZero x = (x =? 0).
Proof. destruct x; reflexivity. Qed.

Lemma eq_spec (x y : nat) : eq x y = (x =? y).
Proof.
  unfold eq, and, Cases. rewrite !isZero_spec, !subtract_spec.
  destruct (Nat.eqb_spec x y) as [->|Hne].
  - rewrite Nat.sub_diag. reflexivity.
  - destruct (Nat.eqb_spec (x - y) 0); [|reflexivity].
    destruct (Nat.eqb_spec (y - x) 0); [lia|reflexivity].
Qed.

Lemma gt_spec (x y : nat) : gt x y = (y <? x).
Proof.
  unfold gt, not, Cases. rewrite isZero_spec, subtract_spec.
  destruct (Nat.eqb_spec (x - y) 0), (Nat.ltb_spec y x); (reflexivity || lia).
Qed.

Lemma lt_spec (x y : nat) : lt x y = (x <? y).
Proof. unfold lt. apply (gt_spec y x). Qed.

(** Host arithmetic facts about the successor of a dividend. *)

Lemma mod_succ (n y : nat) :
  0 < y -> S n mod y = if n mod y =? y - 1 then 0 else S (n mod y).
Proof.
  intros Hy.
  pose proof (Nat.div_mod_eq n y) as Hn.
  pose proof (Nat.mod_upper_bound n y ltac:(lia)) as Hr.
  destruct (Nat.eqb_spec (n mod y) (y - 1)) as [He|Hne]; symmetry.
  - apply (Nat.mod_unique _ _ (S (n / y))); nia.
  - apply (Nat.mod_unique _ _ (n / y)); nia.
Qed.

Lemma div_succ (n y : nat) :
  0 < y -> S n / y = n / y + (if n mod y =? y - 1 then 1 else 0).
Proof.
  intros Hy.
  pose proof (Nat.div_mod_eq n y) as Hn.
  pose proof (Nat.mod_upper_bound n y ltac:(lia)) as Hr.
  destruct (Nat.eqb_spec (n mod y) (y - 1)) as [He|Hne]; symmetry.
  - apply (Nat.div_unique _ _ _ 0); nia.
  - apply (Nat.div_unique _ _ _ (S (n mod y))); nia.
Qed.

(** The recursion inside [remainder], without the [lt] guard in front. *)

Lemma remainder_rec_pos (x y : nat) :
  0 < y -> Rec x Zero (remainder_step y) = x mod y.
Proof.
  intros Hy. induction x as [|x IH].
  - simpl. unfold Zero. symmetry. apply Nat.Div0.mod_0_l.
  - simpl. rewrite IH. unfold remainder_step, Cases.
    rewrite eq_spec, pred_spec, Succ_S, mod_succ by exact Hy.
    rewrite (Nat.eqb_sym (y - 1)). reflexivity.
Qed.

Lemma remainder_rec_zero (x : nat) : Rec x Zero (remainder_step 0) = 0.
Proof.
  induction x as [|x IH]; simpl; [reflexivity|].
  rewrite IH. reflexivity.
Qed.

Lemma remainder_spec (x y : nat) :
  remainder x y = if (x <? y) || (y =? 0) then 0 else x mod y.
Proof.
  unfold remainder, Cases. rewrite lt_spec.
  destruct (Nat.ltb_spec x y) as [Hlt|Hge]; [reflexivity|].
  destruct y as [|y]; simpl orb.
  - apply remainder_rec_zero.
  - apply remainder_rec_pos. lia.
Qed.

(** The recursion inside [divide], without the [lt] guard in front: below
    the divisor the inner [remainder] is cut to zero by its own guard, so the
    count stays at its base until the second multiple of [y] is passed. *)

Lemma divide_rec_ge2 (x y : nat) :
  2 <= y -> Rec x 1 (divide_step y) = if x <? y then 1 else x / y.
Proof.
  intros Hy. induction x as [|x IH].
  { simpl. destruct (Nat.ltb_spec 0 y); [reflexivity|lia]. }
  simpl Rec. rewrite IH. unfold divide_step, Cases.
  rewrite eq_spec, pred_spec, remainder_spec, Succ_S.
  rewrite div_succ by lia.
  destruct (Nat.ltb_spec x y) as [Hlt|Hge]; simpl orb; cbv iota.
  - destruct (Nat.eqb_spec (y - 1) 0) as [H0|_]; [lia|].
    destruct (Nat.ltb_spec (S x) y) as [Hlt'|Hge']; [reflexivity|].
    assert (x = y - 1) as -> by lia.
    rewrite Nat.div_small, Nat.mod_small by lia.
    rewrite Nat.eqb_refl. reflexivity.
  - destruct (Nat.eqb_spec y 0) as [H0|_]; [lia|]. cbv iota.
    destruct (Nat.ltb_spec (S x) y) as [Hlt'|_]; [lia|].
    rewrite (Nat.eqb_sym (y - 1)).
    destruct (x mod y =? y - 1); lia.
Qed.

Lemma remainder_le1 (z y : nat) : y <= 1 -> remainder z y = 0.
Proof.
  intros Hy. rewrite remainder_spec.
  destruct y as [|[|y]]; [|rewrite Nat.mod_1_r|lia].
  - rewrite orb_true_r. reflexivity.
  - destruct ((z <? 1) || (1 =? 0)); reflexivity.
Qed.

Lemma divide_rec_le1 (x y : nat) :
  y <= 1 -> Rec x 1 (divide_step y) = S x.
Proof.
  intros Hy. induction x as [|x IH]; [reflexivity|].
  simpl Rec. rewrite IH. unfold divide_step, Cases.
  rewrite eq_spec, pred_spec, remainder_le1, Succ_S by exact Hy.
  replace (y - 1) with 0 by lia. reflexivity.
Qed.

Lemma divide_spec (x y : nat) :
  divide x y =
  if x <? y then 0 else if y <=? 1 then S x else x / y.
Proof.
  unfold divide, Cases. rewrite lt_spec.
  destruct (Nat.ltb_spec x y) as [Hlt|Hge]; [reflexivity|].
  destruct (Nat.leb_spec y 1) as [Hy|Hy].
  - apply divide_rec_le1, Hy.
  - rewrite divide_rec_ge2 by lia.
    destruct (Nat.ltb_spec x y); [lia|reflexivity].
Qed.

(** ** The recursor *)

(** C3: the recursor returns its base at zero, and at a positive [n] it is
    the step applied to [n - 1] and to the recursor's value at [n - 1]. *)
Theorem Rec_contract (T : Type) :
  (forall (base : T) (step : nat -> T -> T), Rec 0 base step = base) /\
  (forall (n : nat) (base : T) (step : nat -> T -> T),
      0 < n -> Rec n base step = step (n - 1) (Rec (n - 1) base step)).
Proof.
  split; [reflexivity|].
  intros n base step Hn. destruct n as [|n]; [lia|].
  simpl. rewrite Nat.sub_0_r. reflexivity.
Qed.

Lemma Rec_contract_witness :
  0 < 3 /\
  Rec 3 5 (fun z w => z + 2 * w) = (fun z w => z + 2 * w) 2 (Rec 2 5 (fun z w => z + 2 * w)).
Proof.
  split; [lia|].
  exact (proj2 (Rec_contract nat) 3 5 (fun z w => z + 2 * w) ltac:(lia)).
Defined.

(** ** Addition, multiplication, truncated subtraction *)

(** C6: [add] and [multiply] are commutative and associative. *)
Theorem add_multiply_comm_assoc (a b c : nat) :
  add a b = add b a /\
  add (add a b) c = add a (add b c) /\
  multiply a b = multiply b a /\
  multiply (multiply a b) c = multiply a (multiply b c).
Proof.
  rewrite !add_spec, !multiply_spec. repeat split; lia.
Qed.

(** C4: [subtract a b] is zero whenever [a <= b], [subtract a 0] is [a],
    and [subtract] and [pred] saturate at zero: read as integers, their
    results are the integer difference cut off below at zero. *)
Theorem truncated_subtraction (a b : nat) :
  (a <= b -> subtract a b = 0) /\
  subtract a 0 = a /\
  Z.of_nat (subtract a b) = Z.max 0 (Z.of_nat a - Z.of_nat b) /\
  Z.of_nat (pred a) = Z.max 0 (Z.of_nat a - 1) /\
  pred 0 = 0.
Proof.
  rewrite subtract_spec, pred_spec.
  repeat split; try reflexivity; lia.
Qed.

Lemma truncated_subtraction_witness :
  2 <= 3 /\ subtract 2 3 = 0.
Proof.
  split; [lia|].
  exact (proj1 (truncated_subtraction 2 3) ltac:(lia)).
Defined.

(** ** Remainder and division *)

(** C1, as stated, fails below the divisor: [divide 1 2] and
    [remainder 1 2] are both cut to zero by the [lt] guard (the source's
    own tests assert [remainder(1, 2) === 0]), so the right-hand side is
    [0], not [1]. *)
Lemma division_relation_fails_below_divisor :
  remainder 1 2 = 0 /\ divide 1 2 = 0 /\ ~ division_relation_at 1 2.
Proof.
  split; [reflexivity|]. split; [reflexivity|].
  intros H. destruct (H ltac:(lia)) as [Heq _]. vm_compute in Heq. discriminate.
Qed.

(** C1, amended: for [b > 0] the remainder is below [b]; below the divisor
    both [divide] and [remainder] return zero; and from a divisor [b >= 2]
    on, when [a >= b], the dividend is quotient times divisor plus
    remainder. *)
Theorem division_relation (a b : nat) :
  (0 < b -> remainder a b < b) /\
  (a < b -> divide a b = 0 /\ remainder a b = 0) /\
  (2 <= b -> b <= a ->
   a = add (multiply (divide a b) b) (remainder a b)).
Proof.
  rewrite add_spec, multiply_spec, divide_spec, remainder_spec.
  split; [|split].
  - intros Hb. destruct ((a <? b) || (b =? 0)); [exact Hb|].
    apply Nat.mod_upper_bound. lia.
  - intros Hab. destruct (Nat.ltb_spec a b); [|lia]. split; reflexivity.
  - intros Hb Hab.
    destruct (Nat.ltb_spec a b); [lia|].
    destruct (Nat.leb_spec b 1); [lia|].
    destruct (Nat.eqb_spec b 0); [lia|]. simpl.
    pose proof (Nat.div_mod_eq a b). lia.
Qed.

Lemma division_relation_witness :
  (0 < 3 /\ remainder 7 3 < 3) /\
  (1 < 2 /\ divide 1 2 = 0 /\ remainder 1 2 = 0) /\
  (2 <= 3 /\ 3 <= 7 /\ 7 = add (multiply (divide 7 3) 3) (remainder 7 3)).
Proof.
  split; [|split].
  - split; [lia|]. exact (proj1 (division_relation 7 3) ltac:(lia)).
  - split; [lia|]. exact (proj1 (proj2 (division_relation 1 2)) ltac:(lia)).
  - split; [lia|]. split; [lia|].
    exact (proj2 (proj2 (division_relation 7 3)) ltac:(lia) ltac:(lia)).
Defined.

(** At the divisor [1] the count in [divide] is raised at every step, on
    top of its base [1]. *)
Lemma divide_by_one (a : nat) : 1 <= a -> divide a 1 = S a.
Proof.
  intros Ha. rewrite divide_spec.
  destruct (Nat.ltb_spec a 1); [lia|reflexivity].
Qed.

(** C9: with divisor zero nothing fails: [lt x 0] is false, the comparison
    [eq (pred 0) (remainder z 0)] is true at every step, the remainder is
    [0] and the quotient is [x + 1]. *)
Theorem division_by_zero (x : nat) :
  lt x 0 = false /\
  (forall z : nat, eq (pred 0) (remainder z 0) = true) /\
  remainder x 0 = 0 /\
  divide x 0 = x + 1.
Proof.
  assert (Hrem : forall z, remainder z 0 = 0).
  { intros z. apply remainder_le1. lia. }
  split; [rewrite lt_spec; reflexivity|].
  split; [intros z; rewrite Hrem; reflexivity|].
  split; [apply Hrem|].
  rewrite divide_spec. simpl. lia.
Qed.

(** ** Primality *)

(** C7: the primality scenarios of the self-tests. *)
Theorem isPrime_scenarios :
  isPrime 1 = true /\ isPrime 2 = true /\
  isPrime 9 = false /\ isPrime 127 = true.
Proof. vm_compute. repeat split. Qed.

(** Below the tested number the guard of [remainder] never fires, so a
    candidate [z] is counted when it is zero or divides [x]. *)
Lemma isPrime_step_counts (x z w : nat) :
  0 < z -> z <= x ->
  isPrime_step x z w = if x mod z =? 0 then S w else w.
Proof.
  intros Hz Hzx. unfold isPrime_step, Cases.
  rewrite isZero_spec, remainder_spec, Succ_S.
  destruct (Nat.ltb_spec x z); [lia|].
  destruct (Nat.eqb_spec z 0); [lia|]. reflexivity.
Qed.

Lemma isPrime_step_le1 (x z w : nat) :
  z <= 1 -> isPrime_step x z w = S w.
Proof.
  intros Hz. unfold isPrime_step, Cases.
  rewrite remainder_le1, Succ_S by exact Hz. reflexivity.
Qed.

(** The count kept by the recursion of [isPrime] after the candidates
    below [n]: never under two, and two exactly when no candidate from [2]
    on divides [x]. *)
Lemma isPrime_count (x n : nat) :
  2 <= n -> n <= x ->
  2 <= Rec n Zero (isPrime_step x) /\
  (Rec n Zero (isPrime_step x) = 2 <->
   forall d : nat, 2 <= d < n -> ~ Nat.divide d x).
Proof.
  intros Hn. induction Hn as [|m Hm IH]; intros Hx.
  - simpl Rec. rewrite !isPrime_step_le1 by lia. unfold Zero.
    split; [lia|]. split; [intros _ d Hd; lia|reflexivity].
  - destruct (IH ltac:(lia)) as [Hge Hiff]. simpl Rec.
    rewrite isPrime_step_counts by lia.
    destruct (Nat.eqb_spec (x mod m) 0) as [Hdiv|Hndiv].
    + split; [lia|]. split; [lia|].
      intros Hall. exfalso. apply (Hall m); [lia|].
      apply Nat.Lcm0.mod_divide, Hdiv.
    + split; [exact Hge|]. rewrite Hiff. split.
      * intros Hall d Hd. destruct (Nat.eq_dec d m) as [->|Hne].
        -- intros Hd'. apply Hndiv, Nat.Lcm0.mod_divide, Hd'.
        -- apply Hall. lia.
      * intros Hall d Hd. apply Hall. lia.
Qed.

(** C10: from [2] on, [isPrime x] is true exactly when no [d] with
    [2 <= d < x] divides [x]; the candidates [0] and [1] are always
    counted, their remainders being zero. *)
Theorem isPrime_correct (x : nat) :
  2 <= x ->
  remainder x 0 = 0 /\ remainder x 1 = 0 /\
  (isPrime x = true <->
   forall d : nat, 2 <= d < x -> ~ Nat.divide d x).
Proof.
  intros Hx.
  split; [apply remainder_le1; lia|].
  split; [apply remainder_le1; lia|].
  unfold isPrime, Cases. rewrite !eq_spec.
  destruct (Nat.eqb_spec x 1); [lia|].
  destruct (isPrime_count x x Hx (Nat.le_refl x)) as [_ Hiff].
  rewrite <- Hiff, Nat.eqb_eq. split; intros H; symmetry; exact H.
Qed.

Lemma isPrime_correct_witness :
  2 <= 7 /\
  (isPrime 7 = true <-> forall d : nat, 2 <= d < 7 -> ~ Nat.divide d 7).
Proof.
  split; [lia|].
  exact (proj2 (proj2 (isPrime_correct 7 ltac:(lia)))).
Defined.

(** ** Iteration and Ackermann *)

Lemma iterate_succ (f : OneArityNumericFn) (n x : nat) :
  iterate f (S n) x = f (iterate f n x).
Proof. reflexivity. Qed.

(** C5: iterating [m + n] times is iterating [n] times, then [m] times. *)
Theorem iterate_add (f : OneArityNumericFn) (m n x : nat) :
  iterate f (m + n) x = iterate f m (iterate f n x).
Proof.
  induction m as [|m IH]; [reflexivity|].
  rewrite Nat.add_succ_l, !iterate_succ, IH. reflexivity.
Qed.

(** C8: the Ackermann values of the self-tests. *)
Theorem ackermann_known_values :
  ackermann 0 1 = 2 /\ ackermann 0 2 = 3 /\
  ackermann 1 0 = 2 /\ ackermann 1 1 = 3.
Proof. repeat split. Qed.

Lemma ackermann_zero (n : nat) : ackermann 0 n = n + 1.
Proof. reflexivity. Qed.




(** C2: at [m = 1], [n = 0] the code leaves the Ackermann–Péter
    recurrence that its own comment states: [ackermann 2 0] is [6], while
    [iterate (ackermann 1) 0 (ackermann 1 1)] is [3]. *)
Theorem ackermann_leaves_recurrence :
  ackermann (1 + 1) 0 = 6 /\
  iterate (ackermann 1) 0 (ackermann 1 1) = 3.
Proof. split; reflexivity. Qed.

(** * Further properties of the library *)

(** ** The recursor as a left fold *)

(** X1: the recursor calls its step once for each index [0], [1], ...,
    [n - 1], in this order, threading the result: it is the left fold of
    the step over the indices below [n], started at the base. *)
Theorem Rec_fold_left (T : Type) (n : nat) (s : T) (t : nat -> T -> T) :
  Rec n s t = fold_left (fun w z => t z w) (seq 0 n) s.
Proof.
  induction n as [|n IH]; [reflexivity|].
  rewrite seq_S, fold_left_app. simpl. rewrite IH. reflexivity.
Qed.

(** X2: the recursor looks at its step only at indices below [n]: two
    steps that agree there give the same result. *)
Theorem Rec_step_below (T : Type) (n : nat) (s : T) (t t' : nat -> T -> T) :
  (forall z w, z < n -> t z w = t' z w) -> Rec n s t = Rec n s t'.
Proof.
  induction n as [|n IH]; intros Ht; simpl; [reflexivity|].
  rewrite Ht by lia. f_equal. apply IH. intros z w Hz. apply Ht. lia.
Qed.

Lemma Rec_step_below_witness :
  (forall z w, z < 3 -> (fun a b => a + b) z w = (fun a b => Nat.min a 2 + b) z w) /\
  Rec 3 0 (fun a b => a + b) = Rec 3 0 (fun a b => Nat.min a 2 + b).
Proof.
  assert (H : forall z w, z < 3 ->
            (fun a b => a + b) z w = (fun a b => Nat.min a 2 + b) z w).
  { intros z w Hz. simpl. lia. }
  split; [exact H|].
  exact (Rec_step_below nat 3 0 (fun a b => a + b)
           (fun a b => Nat.min a 2 + b) H).
Defined.

(** ** Arithmetic *)

Lemma exp_spec (x y : nat) : exp x y = x ^ y.
Proof.
  unfold exp. induction y as [|y IH]; simpl; [reflexivity|].
  rewrite IH, multiply_spec. reflexivity.
Qed.

Lemma double_spec (x : nat) : double x = 2 * x.
Proof.
  unfold double. induction x as [|x IH]; simpl; [reflexivity|].
  rewrite IH, !Succ_S. lia.
Qed.

(** X3: [exp x y] is the power [x ^ y]; the exponent zero gives [1] for
    every base (zero included) and the exponent one gives the base. *)
Theorem exp_computes_power (x y : nat) :
  exp x y = x ^ y /\ exp x 0 = 1 /\ exp x 1 = x.
Proof.
  rewrite !exp_spec. split; [reflexivity|].
  split; [reflexivity|apply Nat.pow_1_r].
Qed.

(** X4: the exponent laws: a sum of exponents is a product of powers, a
    product of exponents is a power of a power, and the power of a product
    is the product of the powers. *)
Theorem exp_laws (x y a b : nat) :
  exp x (add a b) = multiply (exp x a) (exp x b) /\
  exp x (multiply a b) = exp (exp x a) b /\
  exp (multiply x y) a = multiply (exp x a) (exp y a).
Proof.
  rewrite !exp_spec, !multiply_spec, add_spec.
  split; [apply Nat.pow_add_r|].
  split; [apply Nat.pow_mul_r|apply Nat.pow_mul_l].
Qed.

(** X5: [double x] is [x] added to itself, is twice [x], and dividing it
    by two gives [x] back with remainder zero. *)
Theorem double_twice_and_back (x : nat) :
  double x = add x x /\
  double x = multiply 2 x /\
  divide (double x) 2 = x /\
  remainder (double x) 2 = 0.
Proof.
  rewrite divide_spec, remainder_spec, add_spec, multiply_spec, double_spec.
  split; [lia|]. split; [reflexivity|].
  assert (Hd : 2 * x / 2 = x) by (rewrite Nat.mul_comm; apply Nat.div_mul; lia).
  assert (Hm : (2 * x) mod 2 = 0)
    by (rewrite Nat.mul_comm; apply Nat.Div0.mod_mul).
  split.
  - destruct (Nat.ltb_spec (2 * x) 2); [lia|exact Hd].
  - destruct ((2 * x <? 2) || (2 =? 0)); [reflexivity|exact Hm].
Qed.

(** X6: zero is neutral for [add], one is neutral and zero absorbing for
    [multiply], and [multiply] distributes over [add]. *)
Theorem add_multiply_units (x y z : nat) :
  add x 0 = x /\ add 0 x = x /\
  multiply x 1 = x /\ multiply 1 x = x /\
  multiply x 0 = 0 /\ multiply 0 x = 0 /\
  multiply x (add y z) = add (multiply x y) (multiply x z).
Proof.
  rewrite !multiply_spec, !add_spec.
  repeat split; lia.
Qed.

(** X7: [pred] undoes [Succ]; [Succ] undoes [pred] except at zero, where
    [pred] has already saturated and the round trip gives one. *)
Theorem pred_Succ_round_trip (x : nat) :
  pred (Succ x) = x /\
  Succ (pred x) = if isZero x then 1 else x.
Proof.
  rewrite !pred_spec, !Succ_S, isZero_spec.
  split; [lia|]. destruct x; simpl; lia.
Qed.

(** X8: subtracting what was added gives the start back; adding back what
    was subtracted gives the larger of the two numbers; and subtracting
    twice is subtracting the sum. *)
Theorem subtract_add_round_trip (a b c : nat) :
  subtract (add a b) b = a /\
  add (subtract a b) b = Nat.max a b /\
  subtract (subtract a b) c = subtract a (add b c).
Proof.
  rewrite !subtract_spec, !add_spec.
  repeat split; lia.
Qed.

(** ** Comparisons and booleans *)

Lemma gte_spec (x y : nat) : gte x y = (y <=? x).
Proof.
  unfold gte, or, Cases. rewrite eq_spec, gt_spec.
  destruct (Nat.eqb_spec x y), (Nat.ltb_spec y x), (Nat.leb_spec y x);
    (reflexivity || lia).
Qed.

Lemma lte_spec (x y : nat) : lte x y = (x <=? y).
Proof.
  unfold lte, or, Cases. rewrite eq_spec, lt_spec.
  destruct (Nat.eqb_spec x y), (Nat.ltb_spec x y), (Nat.leb_spec x y);
    (reflexivity || lia).
Qed.

(** X9: [eq], built from two truncated subtractions, decides equality of
    numerals; it is symmetric, and [isZero] is equality with zero. *)
Theorem eq_decides_equality (x y : nat) :
  (eq x y = true <-> x = y) /\
  eq x y = eq y x /\
  isZero x = eq x 0.
Proof.
  rewrite !eq_spec, isZero_spec.
  split; [apply Nat.eqb_eq|]. split; [apply Nat.eqb_sym|reflexivity].
Qed.

(** X10: the four order predicates decide the strict and the weak order
    of the numerals. *)
Theorem order_predicates_decide (x y : nat) :
  (lt x y = true <-> x < y) /\
  (gt x y = true <-> y < x) /\
  (lte x y = true <-> x <= y) /\
  (gte x y = true <-> y <= x).
Proof.
  rewrite lt_spec, gt_spec, lte_spec, gte_spec.
  split; [apply Nat.ltb_lt|]. split; [apply Nat.ltb_lt|].
  split; apply Nat.leb_le.
Qed.

(** X11: how the comparisons relate: [gt] is [lt] with the arguments
    swapped, [gte] and [lte] are the negations of [lt] and [gt], [eq] is
    [lte] together with [gte], and of [lt], [eq], [gt] exactly one holds. *)
Theorem comparisons_relate (x y : nat) :
  gt x y = lt y x /\
  gte x y = not (lt x y) /\
  lte x y = not (gt x y) /\
  eq x y = and (lte x y) (gte x y) /\
  ((lt x y = true /\ eq x y = false /\ gt x y = false) \/
   (lt x y = false /\ eq x y = true /\ gt x y = false) \/
   (lt x y = false /\ eq x y = false /\ gt x y = true)).
Proof.
  rewrite !lt_spec, !gt_spec, lte_spec, gte_spec, eq_spec.
  unfold not, and, Cases.
  destruct (Nat.eqb_spec x y), (Nat.ltb_spec x y), (Nat.ltb_spec y x),
    (Nat.leb_spec x y), (Nat.leb_spec y x); try lia;
    repeat split; auto 6.
Qed.

(** X12: the connectives built from [Cases] are the standard ones on
    every pair of booleans. *)
Theorem connectives_standard (x y : bool) :
  not x = negb x /\ and x y = andb x y /\
  or x y = orb x y /\ xor x y = xorb x y.
Proof. destruct x, y; repeat split. Qed.

(** ** Remainder and division, continued *)

(** X13: from the divisor on, [remainder] is the host's modulo, and it is
    zero exactly when the divisor divides the dividend. *)
Theorem remainder_is_mod (x y : nat) :
  0 < y -> y <= x ->
  remainder x y = x mod y /\ (remainder x y = 0 <-> Nat.divide y x).
Proof.
  intros Hy Hxy. rewrite remainder_spec.
  destruct (Nat.ltb_spec x y); [lia|].
  destruct (Nat.eqb_spec y 0); [lia|]. simpl.
  split; [reflexivity|apply Nat.Lcm0.mod_divide].
Qed.

Lemma remainder_is_mod_witness :
  (0 < 6 /\ 6 <= 10) /\
  remainder 10 6 = 10 mod 6 /\ (remainder 10 6 = 0 <-> Nat.divide 6 10).
Proof.
  split; [lia|]. exact (remainder_is_mod 10 6 ltac:(lia) ltac:(lia)).
Defined.

(** X14: for every divisor from two on, [divide] is the host's floor
    division, below the divisor too. *)
Theorem divide_is_floor (x y : nat) : 2 <= y -> divide x y = x / y.
Proof.
  intros Hy. rewrite divide_spec.
  destruct (Nat.ltb_spec x y) as [Hlt|Hge].
  - symmetry. apply Nat.div_small, Hlt.
  - destruct (Nat.leb_spec y 1); [lia|reflexivity].
Qed.

Lemma divide_is_floor_witness : 2 <= 11 /\ divide 100 11 = 100 / 11.
Proof.
  split; [lia|]. exact (divide_is_floor 100 11 ltac:(lia)).
Defined.

(** X15: at the divisor one, [divide] returns zero for zero and the
    successor of the dividend otherwise. *)
Theorem divide_at_one (x : nat) :
  divide x 1 = if isZero x then 0 else Succ x.
Proof.
  rewrite divide_spec, isZero_spec, Succ_S.
  destruct x; reflexivity.
Qed.

(** X16: for a divisor from two on, dividing a multiple of the divisor
    gives the factor back, with remainder zero. *)
Theorem divide_multiply_round_trip (q y : nat) :
  2 <= y ->
  divide (multiply q y) y = q /\ remainder (multiply q y) y = 0.
Proof.
  intros Hy. rewrite divide_spec, remainder_spec, multiply_spec.
  assert (Hd : q * y / y = q) by (apply Nat.div_mul; lia).
  assert (Hm : (q * y) mod y = 0) by apply Nat.Div0.mod_mul.
  split.
  - destruct (Nat.ltb_spec (q * y) y) as [Hlt|_]; [nia|].
    destruct (Nat.leb_spec y 1); [lia|exact Hd].
  - destruct ((q * y <? y) || (y =? 0)); [reflexivity|exact Hm].
Qed.

Lemma divide_multiply_round_trip_witness :
  2 <= 5 /\ divide (multiply 4 5) 5 = 4 /\ remainder (multiply 4 5) 5 = 0.
Proof.
  split; [lia|]. exact (divide_multiply_round_trip 4 5 ltac:(lia)).
Defined.

(** X21: for a positive divisor, the dividend is quotient times divisor
    plus remainder exactly when the dividend is zero or the divisor is at
    least two and not above the dividend. *)
Theorem division_relation_domain (a b : nat) :
  0 < b ->
  (a = add (multiply (divide a b) b) (remainder a b) <->
   a = 0 \/ (2 <= b /\ b <= a)).
Proof.
  intros Hb. rewrite add_spec, multiply_spec, divide_spec, remainder_spec.
  destruct (Nat.ltb_spec a b) as [Hlt|Hge]; simpl orb; cbv iota.
  - simpl. lia.
  - destruct (Nat.eqb_spec b 0); [lia|]. simpl orb. cbv iota.
    destruct (Nat.leb_spec b 1) as [Hb1|Hb2].
    + assert (b = 1) as -> by lia. rewrite Nat.mod_1_r. lia.
    + pose proof (Nat.div_mod_eq a b). split; [intros _; right|]; lia.
Qed.

Lemma division_relation_domain_witness :
  0 < 3 /\
  (7 = add (multiply (divide 7 3) 3) (remainder 7 3) <->
   7 = 0 \/ (2 <= 3 /\ 3 <= 7)).
Proof.
  split; [lia|]. exact (division_relation_domain 7 3 ltac:(lia)).
Defined.

(** ** Primality, continued *)

Lemma Zdivide_of_nat (d x : nat) :
  0 < d -> ((Z.of_nat d | Z.of_nat x)%Z <-> Nat.divide d x).
Proof.
  intros Hd.
  rewrite <- Nat.Lcm0.mod_divide, <- Z.mod_divide by lia.
  rewrite <- Nat2Z.inj_mod. lia.
Qed.

(** X17: over all numerals, [isPrime x] is true exactly when [x] is one
    or a prime number in the sense of the standard library ([Z.prime]:
    above one, with no divisor strictly between one and itself); in
    particular it is false at zero. *)
Theorem isPrime_characterised (x : nat) :
  isPrime x = true <-> x = 1 \/ Z.prime (Z.of_nat x).
Proof.
  destruct (Nat.lt_ge_cases x 2) as [Hlt|Hge].
  - assert (Hnp : ~ Z.prime (Z.of_nat x)).
    { intros Hp. apply Z.prime_ge_2 in Hp. lia. }
    destruct x as [|[|x]]; [| |lia].
    + split; [discriminate|]. intros [H|H]; [discriminate|contradiction].
    + split; [left; reflexivity|reflexivity].
  - unfold isPrime, Cases. rewrite !eq_spec.
    destruct (Nat.eqb_spec x 1) as [Hx1|Hx1]; [lia|].
    destruct (isPrime_count x x Hge (Nat.le_refl x)) as [_ Hiff].
    rewrite Nat.eqb_eq. split.
    + intros Hc. right. split; [lia|].
      intros k Hk Hdiv.
      assert (Hall := proj1 Hiff (Logic.eq_sym Hc)).
      apply (Hall (Z.to_nat k)); [lia|].
      apply Zdivide_of_nat; [lia|].
      rewrite Z2Nat.id by lia. exact Hdiv.
    + intros [Hx|[_ Hall]]; [lia|]. symmetry. apply Hiff.
      intros d Hd Hdiv. apply (Hall (Z.of_nat d)); [lia|].
      apply Zdivide_of_nat; [lia|exact Hdiv].
Qed.

(** ** Iteration, continued *)

(** X18: an iterate commutes with its function, so the new application
    may as well go innermost; and iterating an iterate multiplies the
    counts. *)
Theorem iterate_commute_and_nest (f : OneArityNumericFn) (m n x : nat) :
  iterate f n (f x) = f (iterate f n x) /\
  iterate (iterate f m) n x = iterate f (multiply m n) x.
Proof.
  assert (Hplus : forall a b z, iterate f (a + b) z = iterate f a (iterate f b z)).
  { intros a b z. induction a as [|a IH]; [reflexivity|].
    rewrite Nat.add_succ_l, !iterate_succ, IH. reflexivity. }
  split.
  - induction n as [|n IH]; [reflexivity|].
    rewrite !iterate_succ, IH. reflexivity.
  - rewrite multiply_spec. induction n as [|n IH].
    + rewrite Nat.mul_0_r. reflexivity.
    + rewrite iterate_succ, IH, <- Hplus. f_equal. lia.
Qed.

(** X19: the arithmetic of the library is iteration: [add] iterates
    [Succ], [multiply] iterates [add x] from zero, [exp] iterates
    [multiply x] from one, and [subtract] iterates [pred]. *)
Theorem arithmetic_is_iteration (x y : nat) :
  add x y = iterate Succ x y /\
  multiply x y = iterate (add x) y 0 /\
  exp x y = iterate (multiply x) y 1 /\
  subtract x y = iterate pred y x.
Proof.
  repeat split.
  - unfold add. induction x as [|x IH]; [reflexivity|].
    rewrite iterate_succ, <- IH. reflexivity.
  - unfold multiply. induction y as [|y IH]; [reflexivity|].
    rewrite iterate_succ, <- IH. reflexivity.
  - unfold exp. induction y as [|y IH]; [reflexivity|].
    rewrite iterate_succ, <- IH. reflexivity.
  - unfold subtract. induction y as [|y IH]; [reflexivity|].
    rewrite iterate_succ, <- IH. reflexivity.
Qed.

(** ** The Ackermann construction, continued *)


End GodelT.
